(** * Sozi camera: a shallow embedding of [sozi.player.Camera.js]

    The file embeds the two prototypes of the source, [CameraState] and
    [Camera], and proves or refutes the properties stated about them.

    Number model.  The prototypes are embedded twice.  Modules
    [CameraState] and [Camera] read the arithmetic of the source over the
    real numbers of the Standard Library: [+], [-], [*], [/],
    [Math.sqrt], [Math.min], [Math.max], [Math.sin], [Math.cos] are the
    real operations, and [%] is the exact truncating remainder that IEEE
    [fmod] computes.  Module [F64] repeats the functions whose results
    depend on rounding over the binary64 numbers of the language, with
    the primitive floating-point operations; it evaluates the source as
    an engine does, and carries the counterexamples that rounding, [NaN]
    and the infinities provide.  The theorems that settle a property are
    worded so that they also hold of the binary64 computation; the lemmas
    that lead to them are facts of the reading over the real numbers.

    The repository holds the prototypes twice, in the name space
    [sozi.player] (helpers [linear] and [quadratic], a state bound to
    [svgRoot]) and in the name space [sozi.display] (helpers [inter] and
    [parabola], a state bound to [viewPort]).  The arithmetic of the two
    copies is the same text; module [Display] records the second set of
    helpers and the lemmas [inter_linear] and [parabola_quadratic] relate
    them. *)

From Stdlib Require Import Floats.PrimFloat.
From Stdlib Require Import Reals Lra List String.
Import ListNotations.

Set Warnings "-inexact-float".

Open Scope R_scope.

(** ** JavaScript arithmetic *)

Module JS.

(** Rounding towards zero, the integer quotient behind [%]. *)
Definition trunc (x : R) : Z :=
  if Rle_dec 0 x then Int_part x else (- Int_part (- x))%Z.

(** [x % y]: the remainder has the sign of the dividend. *)
Definition rem (x y : R) : R := x - y * IZR (trunc (x / y)).

(** Truthiness of a number in a condition: [0] is false. *)
Definition truthy (x : R) : bool := if Req_dec_T x 0 then false else true.

(** [Math.atan2(y, x)], in radians. *)
Definition atan2 (y x : R) : R :=
  if Rlt_dec 0 x then atan (y / x)
  else if Rlt_dec x 0 then
         if Rle_dec 0 y then atan (y / x) + PI else atan (y / x) - PI
  else if Rlt_dec 0 y then PI / 2
  else if Rlt_dec y 0 then - (PI / 2)
  else 0.

End JS.

(** ** The objects of the renderer that the camera reads *)

(** The result of [getBBox()]. *)
Module BBox.
Record t : Type := mk { x : R; y : R; width : R; height : R }.
End BBox.

(** An [SVGPoint]. *)
Module Point.
Record t : Type := mk { x : R; y : R }.
End Point.

(** The result of [getCTM()]: the matrix [a c e / b d f / 0 0 1]. *)
Module Matrix.
Record t : Type := mk { a : R; b : R; c : R; d : R; e : R; f : R }.

(** [point.matrixTransform(matrix)] *)
Definition transform (m : t) (p : Point.t) : Point.t :=
  Point.mk (a m * Point.x p + c m * Point.y p + e m)
           (b m * Point.x p + d m * Point.y p + f m).
End Matrix.

(** An SVG element, as far as [setAtElement] looks at it. *)
Module Element.
Record t : Type := mk { getBBox : BBox.t; getCTM : Matrix.t }.
End Element.

(** An SVG path, as far as [interpolate] looks at it. *)
Module Path.
Record t : Type := mk {
  getTotalLength : R;
  getPointAtLength : R -> Point.t
}.
End Path.

(** The viewport: its size in pixels. *)
Module Viewport.
Record t : Type := mk { svgRoot : BBox.t; width : R; height : R }.
End Viewport.

(** ** CameraState *)

Module CameraState.

(** The six fields of the state, and [svgRoot], seen through the only
    thing the state asks of it, its bounding box. *)
Record t : Type := mk {
  svgRoot : BBox.t;
  cx : R;
  cy : R;
  width : R;
  height : R;
  angle : R;
  clipped : bool
}.

(** Assignments [this.f = v]. *)
Definition set_cx (self : t) (v : R) : t :=
  mk (svgRoot self) v (cy self) (width self) (height self) (angle self)
     (clipped self).
Definition set_cy (self : t) (v : R) : t :=
  mk (svgRoot self) (cx self) v (width self) (height self) (angle self)
     (clipped self).
Definition set_width (self : t) (v : R) : t :=
  mk (svgRoot self) (cx self) (cy self) v (height self) (angle self)
     (clipped self).
Definition set_height (self : t) (v : R) : t :=
  mk (svgRoot self) (cx self) (cy self) (width self) v (angle self)
     (clipped self).
Definition set_angle (self : t) (v : R) : t :=
  mk (svgRoot self) (cx self) (cy self) (width self) (height self) v
     (clipped self).
Definition set_clipped (self : t) (v : bool) : t :=
  mk (svgRoot self) (cx self) (cy self) (width self) (height self)
     (angle self) v.

(** [init(svgRoot)] *)
Definition init (root : BBox.t) : t :=
  let initialBBox := root in
  mk root
     (BBox.x initialBBox + BBox.width initialBBox / 2)
     (BBox.y initialBBox + BBox.height initialBBox / 2)
     (BBox.width initialBBox)
     (BBox.height initialBBox)
     0
     false.

(** [setAngle(angle)] *)
Definition setAngle (self : t) (a : R) : t :=
  set_angle self (JS.rem (a + 180) 360 - 180).

(** [setAtElement(svgElement)] *)
Definition setAtElement (self : t) (svgElement : Element.t) : t :=
  let b := Element.getBBox svgElement in
  let c := Point.mk (BBox.x b + BBox.width b / 2)
                    (BBox.y b + BBox.height b / 2) in
  let matrix := Element.getCTM svgElement in
  let c := Matrix.transform matrix c in
  let scale := sqrt (Matrix.a matrix * Matrix.a matrix
                     + Matrix.b matrix * Matrix.b matrix) in
  let self := set_cx self (Point.x c) in
  let self := set_cy self (Point.y c) in
  let self := set_width self (BBox.width b * scale) in
  let self := set_height self (BBox.height b * scale) in
  set_angle self (JS.atan2 (Matrix.b matrix) (Matrix.a matrix) * 180 / PI).

(** [setAtState(state)]: [this.set] of the six fields. *)
Definition setAtState (self state : t) : t :=
  mk (svgRoot self) (cx state) (cy state) (width state) (height state)
     (angle state) (clipped state).

(** [clone()] *)
Definition clone (self : t) : t :=
  setAtState (init (svgRoot self)) self.

(** The two local functions of [interpolate]; [progress] and
    [relativeZoom] are the variables they capture. *)
Definition linear (progress : R) (initial final : R) : R :=
  let remaining := 1 - progress in
  final * progress + initial * remaining.

Definition quadratic (progress relativeZoom : R) (u0 u1 : R) : R :=
  let um := if Rlt_dec 0 relativeZoom
            then Rmax u0 u1 * (1 + relativeZoom)
            else Rmin u0 u1 * (1 - relativeZoom) in
  let du0 := u0 - um in
  let du1 := u1 - um in
  let r := sqrt (du0 / du1) in
  let tm := r / (1 + r) in
  let k := du0 / tm / tm in
  let dt := progress - tm in
  k * dt * dt + um.

(** [interpolate(initialState, finalState, progress, relativeZoom,
    svgPath, reversePath)].  The source assigns the fields of [this] one
    after the other and returns nothing; the function returns [this]
    after the last assignment.  Every assignment reads, of the two input
    states, only the field it is about to write, so the result is the
    same when [this] is one of the two inputs. *)
Definition interpolate (self initialState finalState : t)
    (progress relativeZoom : R) (svgPath : option Path.t)
    (reversePath : bool) : t :=
  let remaining := 1 - progress in
  (* Interpolate camera width and height *)
  let self :=
    if JS.truthy relativeZoom then
      let self := set_width self
        (quadratic progress relativeZoom (width initialState) (width finalState)) in
      set_height self
        (quadratic progress relativeZoom (height initialState) (height finalState))
    else
      let self := set_width self
        (linear progress (width initialState) (width finalState)) in
      set_height self
        (linear progress (height initialState) (height finalState)) in
  (* Interpolate camera location *)
  let self :=
    match svgPath with
    | Some svgPath =>
        let pathLength := Path.getTotalLength svgPath in
        let startPoint :=
          Path.getPointAtLength svgPath (if reversePath then pathLength else 0) in
        let endPoint :=
          Path.getPointAtLength svgPath (if reversePath then 0 else pathLength) in
        let currentPoint :=
          Path.getPointAtLength svgPath
            (pathLength * (if reversePath then remaining else progress)) in
        let self := set_cx self
          (Point.x currentPoint
           + linear progress (cx initialState - Point.x startPoint)
                             (cx finalState - Point.x endPoint)) in
        set_cy self
          (Point.y currentPoint
           + linear progress (cy initialState - Point.y startPoint)
                             (cy finalState - Point.y endPoint))
    | None =>
        let self := set_cx self (linear progress (cx initialState) (cx finalState)) in
        set_cy self (linear progress (cy initialState) (cy finalState))
    end in
  (* Interpolate camera angle *)
  if Rlt_dec 180 (angle finalState - angle initialState) then
    set_angle self (linear progress (angle initialState) (angle finalState - 360))
  else if Rlt_dec (angle finalState - angle initialState) (-180) then
    set_angle self (linear progress (angle initialState - 360) (angle finalState))
  else
    set_angle self (linear progress (angle initialState) (angle finalState)).

End CameraState.

(** ** The objects of the renderer that the camera writes *)

(** The attributes [x], [y], [width], [height] of the clipping rectangle;
    a fresh [rect] element has them all at [0]. *)
Module Rect.
Record t : Type := mk { x : R; y : R; width : R; height : R }.
Definition fresh : t := mk 0 0 0 0.
End Rect.

(** The numbers of a [transform] attribute
    [scale(s) translate(tx,ty) rotate(r,px,py)], in that order. *)
Module Transform.
Record t : Type := mk {
  scale : R;
  translateX : R;
  translateY : R;
  rotate : R;
  rotateCx : R;
  rotateCy : R
}.
End Transform.

(** A layer: the SVG nodes it groups, by identifier. *)
Module Layer.
Record t : Type := mk { svgNodes : list nat }.
End Layer.

(** ** Camera *)

Module Camera.

(** A camera is a camera state (its prototype) with a viewport and the
    elements it owns: the clipping rectangle and one group per node of
    the layer, each with its [transform] attribute, absent at first. *)
Record t : Type := mk {
  state : CameraState.t;
  viewport : Viewport.t;
  layer : Layer.t;
  selected : bool;
  svgClipRect : Rect.t;
  svgTransformGroups : list (option Transform.t)
}.

(** Assignment to the inherited fields. *)
Definition set_state (self : t) (s : CameraState.t) : t :=
  mk s (viewport self) (layer self) (selected self) (svgClipRect self)
     (svgTransformGroups self).

(** [init(viewport, layer)] *)
Definition init (viewport : Viewport.t) (layer : Layer.t) : t :=
  mk (CameraState.init (Viewport.svgRoot viewport))
     viewport
     layer
     true
     Rect.fresh
     (map (fun _ => None) (Layer.svgNodes layer)).

(** [get scale()] *)
Definition scale (self : t) : R :=
  Rmin (Viewport.width (viewport self) / CameraState.width (state self))
       (Viewport.height (viewport self) / CameraState.height (state self)).

(** The size of the frame on the screen, as [update] computes it. *)
Definition frameWidth (self : t) : R :=
  CameraState.width (state self) * scale self.
Definition frameHeight (self : t) : R :=
  CameraState.height (state self) * scale self.

(** [update()] *)
Definition update (self : t) : t :=
  let scale := scale self in
  let width := frameWidth self in
  let height := frameHeight self in
  let x := (Viewport.width (viewport self) - width) / 2 in
  let y := (Viewport.height (viewport self) - height) / 2 in
  let clipped := CameraState.clipped (state self) in
  let clipRect :=
    Rect.mk (if clipped then x else 0)
            (if clipped then y else 0)
            (if clipped then width else Viewport.width (viewport self))
            (if clipped then height else Viewport.height (viewport self)) in
  let translateX :=
    - CameraState.cx (state self) + CameraState.width (state self) / 2
    + x / scale in
  let translateY :=
    - CameraState.cy (state self) + CameraState.height (state self) / 2
    + y / scale in
  mk (state self) (viewport self) (layer self) (selected self)
     clipRect
     (map (fun _ =>
             Some (Transform.mk scale translateX translateY
                     (- CameraState.angle (state self))
                     (CameraState.cx (state self))
                     (CameraState.cy (state self))))
          (svgTransformGroups self)).

(** [setAtState(state)] *)
Definition setAtState (self : t) (s : CameraState.t) : t :=
  update (set_state self (CameraState.setAtState (state self) s)).

(** [rotate(angle)] *)
Definition rotate (self : t) (a : R) : t :=
  update (set_state self
            (CameraState.setAngle (state self)
               (CameraState.angle (state self) + a))).

(** [drag(deltaX, deltaY)] *)
Definition drag (self : t) (deltaX deltaY : R) : t :=
  let scale := scale self in
  let angleRad := CameraState.angle (state self) * PI / 180 in
  let si := sin angleRad in
  let co := cos angleRad in
  let s := CameraState.set_clipped (state self) false in
  let s := CameraState.set_cx s
             (CameraState.cx s - (deltaX * co - deltaY * si) / scale) in
  let s := CameraState.set_cy s
             (CameraState.cy s - (deltaX * si + deltaY * co) / scale) in
  update (set_state self s).

(** [zoom(factor, x, y)] *)
Definition zoom (self : t) (factor x y : R) : t :=
  let s := state self in
  let s := CameraState.set_width s (CameraState.width s / factor) in
  let s := CameraState.set_height s (CameraState.height s / factor) in
  let self := set_state self s in
  drag self
       ((1 - factor) * (x - Viewport.width (viewport self) / 2))
       ((1 - factor) * (y - Viewport.height (viewport self) / 2)).

End Camera.

(** ** The copy of the prototypes in [sozi.display] *)

Module Display.

(** The local functions of [interpolate], under their second names. *)
Definition inter (progress : R) (initial final : R) : R :=
  let remaining := 1 - progress in
  final * progress + initial * remaining.

Definition parabola (progress relativeZoom : R) (u0 u1 : R) : R :=
  let um := if Rlt_dec 0 relativeZoom
            then Rmax u0 u1 * (1 + relativeZoom)
            else Rmin u0 u1 * (1 - relativeZoom) in
  let du0 := u0 - um in
  let du1 := u1 - um in
  let r := sqrt (du0 / du1) in
  let tm := r / (1 + r) in
  let k := du0 / tm / tm in
  let dt := progress - tm in
  k * dt * dt + um.

End Display.

(** ** The specification's formulas

    Definitions that follow the words of the specification, to be
    compared with the functions above. *)

Module Spec.

(** The modulo with a non-negative remainder for a positive modulus. *)
Definition modulo (x y : R) : R := x - y * IZR (Int_part (x / y)).

(** [((angle + 180) mod 360) - 180] *)
Definition setAngle (a : R) : R := modulo (a + 180) 360 - 180.

(** [lerp(u0, u1, t) = u0 * (1 - t) + u1 * t] *)
Definition lerp (u0 u1 t : R) : R := u0 * (1 - t) + u1 * t.

(** The apex value of the zoom parabola. *)
Definition um (relativeZoom u0 u1 : R) : R :=
  if Rlt_dec 0 relativeZoom
  then Rmax u0 u1 * (1 + relativeZoom)
  else Rmin u0 u1 * (1 - relativeZoom).

(** [r = sqrt (du0 / du1)], with [du0 = u0 - um] and [du1 = u1 - um]. *)
Definition r (relativeZoom u0 u1 : R) : R :=
  let um := um relativeZoom u0 u1 in
  sqrt ((u0 - um) / (u1 - um)).

(** The time of the apex: [tm = r / (1 + r)]. *)
Definition tm (relativeZoom u0 u1 : R) : R :=
  let r := r relativeZoom u0 u1 in
  r / (1 + r).

(** The coefficient [k = du0 / tm^2]. *)
Definition k (relativeZoom u0 u1 : R) : R :=
  (u0 - um relativeZoom u0 u1) / (tm relativeZoom u0 u1) ^ 2.

(** [k * (progress - tm)^2 + um] *)
Definition parabola (relativeZoom u0 u1 progress : R) : R :=
  k relativeZoom u0 u1 * (progress - tm relativeZoom u0 u1) ^ 2
  + um relativeZoom u0 u1.

(** The two endpoints lie strictly on the same side of the apex. *)
Definition share_sign (relativeZoom u0 u1 : R) : Prop :=
  let um := um relativeZoom u0 u1 in
  (u0 - um < 0 /\ u1 - um < 0) \/ (0 < u0 - um /\ 0 < u1 - um).

End Spec.

(** ** Predicates on states, and the camera as a transition system *)

(** The size invariant of the data model. *)
Definition positive (s : CameraState.t) : Prop :=
  0 < CameraState.width s /\ 0 < CameraState.height s.

(** Field-wise equality over [cx], [cy], [width], [height], [angle],
    [clipped]. *)
Definition fieldwise_eq (s1 s2 : CameraState.t) : Prop :=
  CameraState.cx s1 = CameraState.cx s2 /\
  CameraState.cy s1 = CameraState.cy s2 /\
  CameraState.width s1 = CameraState.width s2 /\
  CameraState.height s1 = CameraState.height s2 /\
  CameraState.angle s1 = CameraState.angle s2 /\
  CameraState.clipped s1 = CameraState.clipped s2.

(** The calls that change a camera: its own methods and the ones it
    inherits from [CameraState], which run on its state without
    [update]. *)
Inductive command : Type :=
| Rotate (a : R)
| Zoom (factor x y : R)
| Drag (deltaX deltaY : R)
| SetAtState (s : CameraState.t)
| SetAngle (a : R)
| SetAtElement (svgElement : Element.t)
| Interpolate (initialState finalState : CameraState.t)
              (progress relativeZoom : R) (svgPath : option Path.t)
              (reversePath : bool).

Definition run (self : Camera.t) (c : command) : Camera.t :=
  match c with
  | Rotate a => Camera.rotate self a
  | Zoom factor x y => Camera.zoom self factor x y
  | Drag deltaX deltaY => Camera.drag self deltaX deltaY
  | SetAtState s => Camera.setAtState self s
  | SetAngle a =>
      Camera.set_state self (CameraState.setAngle (Camera.state self) a)
  | SetAtElement svgElement =>
      Camera.set_state self
        (CameraState.setAtElement (Camera.state self) svgElement)
  | Interpolate initialState finalState progress relativeZoom svgPath reversePath =>
      Camera.set_state self
        (CameraState.interpolate (Camera.state self) initialState finalState
           progress relativeZoom svgPath reversePath)
  end.

(** A size that is not negative. *)
Definition nonnegative (s : CameraState.t) : Prop :=
  0 <= CameraState.width s /\ 0 <= CameraState.height s.

(** The calls under which the size does not become negative: [rotate],
    [drag], [setAngle], a [zoom] with a positive factor and a
    [setAtState] that copies a state whose size is not negative. *)
Definition size_safe (c : command) : Prop :=
  match c with
  | Zoom factor _ _ => 0 < factor
  | SetAtState s => nonnegative s
  | Rotate _ | Drag _ _ | SetAngle _ => True
  | SetAtElement _ | Interpolate _ _ _ _ _ _ => False
  end.

(** ** [setAtElement] in [sozi.display]

    The second copy reads the geometry of a [rect] element from its own
    attributes and the geometry of any other element from its bounding
    box. *)

Module DisplayElement.
Record t : Type := mk {
  nodeName : string;
  x : R;
  y : R;
  width : R;
  height : R;
  getBBox : BBox.t;
  getCTM : Matrix.t
}.

(** The box [x, y, w, h] that [setAtElement] reads. *)
Definition rawBox (svgElement : t) : BBox.t :=
  if String.eqb (nodeName svgElement) "rect"
  then BBox.mk (x svgElement) (y svgElement)
               (width svgElement) (height svgElement)
  else
    let b := getBBox svgElement in
    BBox.mk (BBox.x b) (BBox.y b) (BBox.width b) (BBox.height b).

(** [setAtElement(svgElement)] *)
Definition setAtElement (self : CameraState.t) (svgElement : t)
    : CameraState.t :=
  let box := rawBox svgElement in
  let x := BBox.x box in
  let y := BBox.y box in
  let w := BBox.width box in
  let h := BBox.height box in
  let c := Point.mk (x + w / 2) (y + h / 2) in
  let matrix := getCTM svgElement in
  let c := Matrix.transform matrix c in
  let scale := sqrt (Matrix.a matrix * Matrix.a matrix
                     + Matrix.b matrix * Matrix.b matrix) in
  let self := CameraState.set_cx self (Point.x c) in
  let self := CameraState.set_cy self (Point.y c) in
  let self := CameraState.set_width self (w * scale) in
  let self := CameraState.set_height self (h * scale) in
  CameraState.set_angle self
    (JS.atan2 (Matrix.b matrix) (Matrix.a matrix) * 180 / PI).
End DisplayElement.

(** The transform that [update] writes to every group of the camera. *)
Definition emitted (self : Camera.t) : Transform.t :=
  Transform.mk
    (Camera.scale self)
    (- CameraState.cx (Camera.state self)
     + CameraState.width (Camera.state self) / 2
     + (Viewport.width (Camera.viewport self) - Camera.frameWidth self) / 2
       / Camera.scale self)
    (- CameraState.cy (Camera.state self)
     + CameraState.height (Camera.state self) / 2
     + (Viewport.height (Camera.viewport self) - Camera.frameHeight self) / 2
       / Camera.scale self)
    (- CameraState.angle (Camera.state self))
    (CameraState.cx (Camera.state self))
    (CameraState.cy (Camera.state self)).

(** The methods of [Camera] itself, which end with [update]. *)
Definition updating (c : command) : Prop :=
  match c with
  | Rotate _ | Zoom _ _ _ | Drag _ _ | SetAtState _ => True
  | SetAngle _ | SetAtElement _ | Interpolate _ _ _ _ _ _ => False
  end.

(** ** The arithmetic of the source: binary64

    The functions whose results depend on rounding, once more, over the
    binary64 numbers that JavaScript computes with.  The operations are
    those of IEEE 754, rounded to nearest; a comparison with [NaN] is
    false.  The elements that the camera owns in the renderer are left
    out of this module, and [update], which writes nothing else, with
    them. *)

Module F64.
Import PrimFloat.
Local Open Scope float_scope.

(** Truthiness of a number in a condition: [0], [-0] and [NaN] are
    false. *)
Definition truthy (x : float) : bool := negb (is_nan x || is_zero x).

(** [Math.max] and [Math.min] of two numbers: [NaN] if one of them is,
    and [-0] below [+0]. *)
Definition max (a b : float) : float :=
  if is_nan a then nan
  else if is_nan b then nan
  else if b <? a then a
  else if a <? b then b
  else if is_zero a then (if get_sign a then b else a)
  else a.

Definition min (a b : float) : float :=
  if is_nan a then nan
  else if is_nan b then nan
  else if a <? b then a
  else if b <? a then b
  else if is_zero a then (if get_sign a then a else b)
  else a.

(** [Math.PI] *)
Definition PI : float := 0x1.921fb54442d18p+1.

Module Point.
Record t : Type := mk { x : float; y : float }.
End Point.

Module Path.
Record t : Type := mk {
  getTotalLength : float;
  getPointAtLength : float -> Point.t
}.
End Path.

Module Viewport.
Record t : Type := mk { width : float; height : float }.
End Viewport.

Module CameraState.

Record t : Type := mk {
  cx : float;
  cy : float;
  width : float;
  height : float;
  angle : float;
  clipped : bool
}.

Definition set_cx (self : t) (v : float) : t :=
  mk v (cy self) (width self) (height self) (angle self) (clipped self).
Definition set_cy (self : t) (v : float) : t :=
  mk (cx self) v (width self) (height self) (angle self) (clipped self).
Definition set_width (self : t) (v : float) : t :=
  mk (cx self) (cy self) v (height self) (angle self) (clipped self).
Definition set_height (self : t) (v : float) : t :=
  mk (cx self) (cy self) (width self) v (angle self) (clipped self).
Definition set_angle (self : t) (v : float) : t :=
  mk (cx self) (cy self) (width self) (height self) v (clipped self).
Definition set_clipped (self : t) (v : bool) : t :=
  mk (cx self) (cy self) (width self) (height self) (angle self) v.

Definition linear (progress : float) (initial final : float) : float :=
  let remaining := 1 - progress in
  final * progress + initial * remaining.

Definition quadratic (progress relativeZoom : float) (u0 u1 : float) : float :=
  let um := if 0 <? relativeZoom
            then max u0 u1 * (1 + relativeZoom)
            else min u0 u1 * (1 - relativeZoom) in
  let du0 := u0 - um in
  let du1 := u1 - um in
  let r := sqrt (du0 / du1) in
  let tm := r / (1 + r) in
  let k := du0 / tm / tm in
  let dt := progress - tm in
  k * dt * dt + um.

(** The local variables [um] and [tm] of [quadratic]. *)
Definition um (relativeZoom u0 u1 : float) : float :=
  if 0 <? relativeZoom
  then max u0 u1 * (1 + relativeZoom)
  else min u0 u1 * (1 - relativeZoom).

Definition tm (relativeZoom u0 u1 : float) : float :=
  let um := um relativeZoom u0 u1 in
  let du0 := u0 - um in
  let du1 := u1 - um in
  let r := sqrt (du0 / du1) in
  r / (1 + r).

Definition interpolate (self initialState finalState : t)
    (progress relativeZoom : float) (svgPath : option Path.t)
    (reversePath : bool) : t :=
  let remaining := 1 - progress in
  let self :=
    if truthy relativeZoom then
      let self := set_width self
        (quadratic progress relativeZoom (width initialState) (width finalState)) in
      set_height self
        (quadratic progress relativeZoom (height initialState) (height finalState))
    else
      let self := set_width self
        (linear progress (width initialState) (width finalState)) in
      set_height self
        (linear progress (height initialState) (height finalState)) in
  let self :=
    match svgPath with
    | Some svgPath =>
        let pathLength := Path.getTotalLength svgPath in
        let startPoint :=
          Path.getPointAtLength svgPath (if reversePath then pathLength else 0) in
        let endPoint :=
          Path.getPointAtLength svgPath (if reversePath then 0 else pathLength) in
        let currentPoint :=
          Path.getPointAtLength svgPath
            (pathLength * (if reversePath then remaining else progress)) in
        let self := set_cx self
          (Point.x currentPoint
           + linear progress (cx initialState - Point.x startPoint)
                             (cx finalState - Point.x endPoint)) in
        set_cy self
          (Point.y currentPoint
           + linear progress (cy initialState - Point.y startPoint)
                             (cy finalState - Point.y endPoint))
    | None =>
        let self := set_cx self (linear progress (cx initialState) (cx finalState)) in
        set_cy self (linear progress (cy initialState) (cy finalState))
    end in
  if 180 <? angle finalState - angle initialState then
    set_angle self (linear progress (angle initialState) (angle finalState - 360))
  else if angle finalState - angle initialState <? -180 then
    set_angle self (linear progress (angle initialState - 360) (angle finalState))
  else
    set_angle self (linear progress (angle initialState) (angle finalState)).

End CameraState.

Module Camera.

Record t : Type := mk {
  state : CameraState.t;
  viewport : Viewport.t
}.

Definition set_state (self : t) (s : CameraState.t) : t := mk s (viewport self).

(** [get scale()] *)
Definition scale (self : t) : float :=
  min (Viewport.width (viewport self) / CameraState.width (state self))
      (Viewport.height (viewport self) / CameraState.height (state self)).

(** The size of the frame on the screen, as [update] computes it. *)
Definition frameWidth (self : t) : float :=
  CameraState.width (state self) * scale self.
Definition frameHeight (self : t) : float :=
  CameraState.height (state self) * scale self.

(** [drag(deltaX, deltaY)] and [zoom(factor, x, y)]; [Math.sin] and
    [Math.cos], which the language leaves to the implementation, are
    parameters. *)
Definition drag (Math_sin Math_cos : float -> float) (self : t)
    (deltaX deltaY : float) : t :=
  let scale := scale self in
  let angleRad := CameraState.angle (state self) * PI / 180 in
  let si := Math_sin angleRad in
  let co := Math_cos angleRad in
  let s := CameraState.set_clipped (state self) false in
  let s := CameraState.set_cx s
             (CameraState.cx s - (deltaX * co - deltaY * si) / scale) in
  let s := CameraState.set_cy s
             (CameraState.cy s - (deltaX * si + deltaY * co) / scale) in
  set_state self s.

Definition zoom (Math_sin Math_cos : float -> float) (self : t)
    (factor x y : float) : t :=
  let s := state self in
  let s := CameraState.set_width s (CameraState.width s / factor) in
  let s := CameraState.set_height s (CameraState.height s / factor) in
  let self := set_state self s in
  drag Math_sin Math_cos self
       ((1 - factor) * (x - Viewport.width (viewport self) / 2))
       ((1 - factor) * (y - Viewport.height (viewport self) / 2)).

End Camera.

End F64.

(** ** The remainder *)

Lemma trunc_small (x : R) : -1 < x < 1 -> JS.trunc x = 0%Z.
Proof.
  intros [Hlo Hhi]. unfold JS.trunc.
  destruct (Rle_dec 0 x) as [Hx | Hx].
  - symmetry. apply Int_part_spec. simpl. lra.
  - assert (E : Int_part (- x) = 0%Z).
    { symmetry. apply Int_part_spec. simpl. lra. }
    rewrite E. reflexivity.
Qed.

Lemma trunc_nonneg (x : R) : 0 <= x -> JS.trunc x = Int_part x.
Proof.
  intros Hx. unfold JS.trunc. destruct (Rle_dec 0 x); [reflexivity | lra].
Qed.

Lemma trunc_bounds_nonneg (x : R) :
  0 <= x -> IZR (JS.trunc x) <= x < IZR (JS.trunc x) + 1.
Proof.
  intros Hx. rewrite (trunc_nonneg x Hx).
  destruct (base_Int_part x). lra.
Qed.

Lemma trunc_bounds_neg (x : R) :
  x < 0 -> IZR (JS.trunc x) - 1 < x <= IZR (JS.trunc x).
Proof.
  intros Hx. unfold JS.trunc. destruct (Rle_dec 0 x); [lra |].
  rewrite opp_IZR. destruct (base_Int_part (- x)). lra.
Qed.

Lemma rem_small (x y : R) : 0 < y -> - y < x < y -> JS.rem x y = x.
Proof.
  intros Hy [Hlo Hhi]. unfold JS.rem.
  rewrite trunc_small; [simpl; lra |].
  split.
  - apply (Rmult_lt_reg_r y); [assumption |].
    unfold Rdiv. rewrite Rmult_assoc, Rinv_l by lra. lra.
  - apply (Rmult_lt_reg_r y); [assumption |].
    unfold Rdiv. rewrite Rmult_assoc, Rinv_l by lra. lra.
Qed.

Lemma rem_range_nonneg (x y : R) :
  0 < y -> 0 <= x -> 0 <= JS.rem x y < y.
Proof.
  intros Hy Hx. unfold JS.rem.
  assert (Hq : 0 <= x / y).
  { unfold Rdiv. apply Rmult_le_pos; [assumption |].
    left. apply Rinv_0_lt_compat. assumption. }
  destruct (trunc_bounds_nonneg _ Hq) as [H1 H2].
  assert (E : x = y * (x / y)) by (field; lra).
  split; nra.
Qed.

Lemma rem_range_neg (x y : R) :
  0 < y -> x < 0 -> - y < JS.rem x y <= 0.
Proof.
  intros Hy Hx. unfold JS.rem.
  assert (Hq : x / y < 0).
  { unfold Rdiv. assert (0 < / y) by (apply Rinv_0_lt_compat; assumption). nra. }
  destruct (trunc_bounds_neg _ Hq) as [H1 H2].
  assert (E : x = y * (x / y)) by (field; lra).
  split; nra.
Qed.

Lemma rem_modulo_nonneg (x y : R) :
  0 <= x / y -> JS.rem x y = Spec.modulo x y.
Proof.
  intros Hq. unfold JS.rem, Spec.modulo. rewrite trunc_nonneg by assumption.
  reflexivity.
Qed.

Lemma modulo_range (x y : R) : 0 < y -> 0 <= Spec.modulo x y < y.
Proof.
  intros Hy. unfold Spec.modulo.
  destruct (base_Int_part (x / y)) as [H1 H2].
  assert (E : x = y * (x / y)) by (field; lra).
  split; nra.
Qed.

Lemma modulo_period (x y : R) (n : Z) :
  y <> 0 -> Spec.modulo (x + y * IZR n) y = Spec.modulo x y.
Proof.
  intros Hy. unfold Spec.modulo.
  assert (E : (x + y * IZR n) / y = x / y + IZR n) by (field; assumption).
  rewrite E.
  assert (I : Int_part (x / y + IZR n) = (Int_part (x / y) + n)%Z).
  { symmetry. apply Int_part_spec. rewrite plus_IZR.
    destruct (base_Int_part (x / y)). lra. }
  rewrite I, plus_IZR. ring.
Qed.

(** ** [setAngle] *)

Lemma setAngle_frame (self : CameraState.t) (a : R) :
  CameraState.cx (CameraState.setAngle self a) = CameraState.cx self /\
  CameraState.cy (CameraState.setAngle self a) = CameraState.cy self /\
  CameraState.width (CameraState.setAngle self a) = CameraState.width self /\
  CameraState.height (CameraState.setAngle self a) = CameraState.height self /\
  CameraState.clipped (CameraState.setAngle self a) = CameraState.clipped self.
Proof. repeat split. Qed.

(** From [-180] upwards the source computes the specification's formula. *)
Lemma setAngle_from_minus_180 (self : CameraState.t) (a : R) :
  -180 <= a ->
  CameraState.angle (CameraState.setAngle self a) = Spec.setAngle a /\
  -180 <= CameraState.angle (CameraState.setAngle self a) < 180.
Proof.
  intros Ha. unfold CameraState.setAngle, Spec.setAngle. simpl.
  assert (Hq : 0 <= (a + 180) / 360) by lra.
  rewrite (rem_modulo_nonneg _ _ Hq).
  split; [reflexivity |].
  assert (H := modulo_range (a + 180) 360). lra.
Qed.

(** Below [-180] the remainder is negative or zero, and the result stays
    at or below [-180]. *)
Lemma setAngle_below_minus_180 (self : CameraState.t) (a : R) :
  a < -180 ->
  -540 < CameraState.angle (CameraState.setAngle self a) <= -180.
Proof.
  intros Ha. unfold CameraState.setAngle. simpl.
  assert (H := rem_range_neg (a + 180) 360). lra.
Qed.

(** The formula of the specification has the two properties asked of
    [setAngle]. *)
Lemma spec_setAngle_range (a : R) : -180 <= Spec.setAngle a < 180.
Proof.
  unfold Spec.setAngle. assert (H := modulo_range (a + 180) 360). lra.
Qed.

Lemma spec_setAngle_period (a : R) (k : Z) :
  Spec.setAngle (a + 360 * IZR k) = Spec.setAngle a.
Proof.
  unfold Spec.setAngle.
  replace (a + 360 * IZR k + 180) with (a + 180 + 360 * IZR k) by ring.
  rewrite modulo_period by lra. reflexivity.
Qed.

Lemma spec_setAngle_minus_190 : Spec.setAngle (-190) = 170.
Proof.
  unfold Spec.setAngle, Spec.modulo.
  assert (I : Int_part ((-190 + 180) / 360) = (-1)%Z).
  { symmetry. apply Int_part_spec. simpl. lra. }
  rewrite I. simpl. lra.
Qed.

(** Two angles above [-180]: [190] wraps to [-170], and [180] to [-180]. *)
Example setAngle_190 (self : CameraState.t) :
  CameraState.angle (CameraState.setAngle self 190) = -170.
Proof.
  unfold CameraState.setAngle, JS.rem. simpl.
  assert (T : JS.trunc ((190 + 180) / 360) = 1%Z).
  { rewrite trunc_nonneg by lra. symmetry. apply Int_part_spec. simpl. lra. }
  rewrite T. simpl. lra.
Qed.

Example setAngle_180 (self : CameraState.t) :
  CameraState.angle (CameraState.setAngle self 180) = -180.
Proof.
  unfold CameraState.setAngle, JS.rem. simpl.
  assert (T : JS.trunc ((180 + 180) / 360) = 1%Z).
  { rewrite trunc_nonneg by lra. symmetry. apply Int_part_spec. simpl. lra. }
  rewrite T. simpl. lra.
Qed.

(** C1.  The source's [setAngle] at the angle [-190], which [rotate(-20)]
    passes to it from the angle [-170]: the remainder of [-10] by [360] is
    [-10], so the angle becomes [-190], outside [[-180, 180)]; at
    [-190 + 360] the angle becomes [170], which is also what the
    specification's modulo gives at [-190].  The source does not use a
    modulo with a non-negative remainder, and the two properties claimed
    for every angle fail at this one. *)
Theorem setAngle_minus_190 (self : CameraState.t) :
  CameraState.angle (CameraState.setAngle self (-190)) = -190 /\
  ~ (-180 <= CameraState.angle (CameraState.setAngle self (-190)) < 180) /\
  CameraState.angle (CameraState.setAngle self (-190 + 360 * 1)) = 170 /\
  Spec.setAngle (-190) = 170.
Proof.
  assert (E1 : CameraState.angle (CameraState.setAngle self (-190)) = -190).
  { unfold CameraState.setAngle. simpl.
    rewrite rem_small by lra. lra. }
  assert (E2 : CameraState.angle (CameraState.setAngle self (-190 + 360 * 1)) = 170).
  { unfold CameraState.setAngle. simpl.
    rewrite rem_small by lra. lra. }
  split; [exact E1 |].
  split; [rewrite E1; lra |].
  split; [exact E2 | exact spec_setAngle_minus_190].
Qed.

(** ** [interpolate]: the fields one by one *)

Lemma truthy_0 : JS.truthy 0 = false.
Proof. unfold JS.truthy. destruct (Req_dec_T 0 0); [reflexivity | lra]. Qed.

Lemma truthy_nonzero (x : R) : x <> 0 -> JS.truthy x = true.
Proof.
  intros Hx. unfold JS.truthy. destruct (Req_dec_T x 0); [contradiction | reflexivity].
Qed.

Ltac interpolate_cases :=
  unfold CameraState.interpolate;
  repeat match goal with
         | |- context [JS.truthy ?z] => destruct (JS.truthy z)
         | |- context [Rlt_dec ?a ?b] => destruct (Rlt_dec a b)
         | |- context [match ?p with Some _ => _ | None => _ end] => destruct p
         end.

Lemma interpolate_clipped self A B p rz path rev :
  CameraState.clipped (CameraState.interpolate self A B p rz path rev)
  = CameraState.clipped self.
Proof. interpolate_cases; reflexivity. Qed.

Lemma interpolate_svgRoot self A B p rz path rev :
  CameraState.svgRoot (CameraState.interpolate self A B p rz path rev)
  = CameraState.svgRoot self.
Proof. interpolate_cases; reflexivity. Qed.

Lemma interpolate_width self A B p rz path rev :
  CameraState.width (CameraState.interpolate self A B p rz path rev)
  = if JS.truthy rz
    then CameraState.quadratic p rz (CameraState.width A) (CameraState.width B)
    else CameraState.linear p (CameraState.width A) (CameraState.width B).
Proof. interpolate_cases; reflexivity. Qed.

Lemma interpolate_height self A B p rz path rev :
  CameraState.height (CameraState.interpolate self A B p rz path rev)
  = if JS.truthy rz
    then CameraState.quadratic p rz (CameraState.height A) (CameraState.height B)
    else CameraState.linear p (CameraState.height A) (CameraState.height B).
Proof. interpolate_cases; reflexivity. Qed.

Lemma interpolate_cx_no_path self A B p rz rev :
  CameraState.cx (CameraState.interpolate self A B p rz None rev)
  = CameraState.linear p (CameraState.cx A) (CameraState.cx B).
Proof. interpolate_cases; reflexivity. Qed.

Lemma interpolate_cy_no_path self A B p rz rev :
  CameraState.cy (CameraState.interpolate self A B p rz None rev)
  = CameraState.linear p (CameraState.cy A) (CameraState.cy B).
Proof. interpolate_cases; reflexivity. Qed.

Lemma interpolate_cx_path self A B p rz path rev :
  CameraState.cx (CameraState.interpolate self A B p rz (Some path) rev)
  = let pathLength := Path.getTotalLength path in
    Point.x (Path.getPointAtLength path
               (pathLength * (if rev then 1 - p else p)))
    + CameraState.linear p
        (CameraState.cx A
         - Point.x (Path.getPointAtLength path (if rev then pathLength else 0)))
        (CameraState.cx B
         - Point.x (Path.getPointAtLength path (if rev then 0 else pathLength))).
Proof. interpolate_cases; reflexivity. Qed.

Lemma interpolate_cy_path self A B p rz path rev :
  CameraState.cy (CameraState.interpolate self A B p rz (Some path) rev)
  = let pathLength := Path.getTotalLength path in
    Point.y (Path.getPointAtLength path
               (pathLength * (if rev then 1 - p else p)))
    + CameraState.linear p
        (CameraState.cy A
         - Point.y (Path.getPointAtLength path (if rev then pathLength else 0)))
        (CameraState.cy B
         - Point.y (Path.getPointAtLength path (if rev then 0 else pathLength))).
Proof. interpolate_cases; reflexivity. Qed.

Lemma interpolate_angle self A B p rz path rev :
  CameraState.angle (CameraState.interpolate self A B p rz path rev)
  = if Rlt_dec 180 (CameraState.angle B - CameraState.angle A)
    then CameraState.linear p (CameraState.angle A) (CameraState.angle B - 360)
    else if Rlt_dec (CameraState.angle B - CameraState.angle A) (-180)
    then CameraState.linear p (CameraState.angle A - 360) (CameraState.angle B)
    else CameraState.linear p (CameraState.angle A) (CameraState.angle B).
Proof.
  unfold CameraState.interpolate.
  destruct (JS.truthy rz), path;
    destruct (Rlt_dec 180 (CameraState.angle B - CameraState.angle A));
    try reflexivity;
    destruct (Rlt_dec (CameraState.angle B - CameraState.angle A) (-180));
    reflexivity.
Qed.

Lemma linear_lerp (p u0 u1 : R) : CameraState.linear p u0 u1 = Spec.lerp u0 u1 p.
Proof. unfold CameraState.linear, Spec.lerp. ring. Qed.

Lemma linear_0 (u0 u1 : R) : CameraState.linear 0 u0 u1 = u0.
Proof. unfold CameraState.linear. ring. Qed.

Lemma linear_1 (u0 u1 : R) : CameraState.linear 1 u0 u1 = u1.
Proof. unfold CameraState.linear. ring. Qed.

(** The helpers of the second copy are the same functions. *)
Lemma inter_linear (p u0 u1 : R) : Display.inter p u0 u1 = CameraState.linear p u0 u1.
Proof. reflexivity. Qed.

Lemma parabola_quadratic (p rz u0 u1 : R) :
  Display.parabola p rz u0 u1 = CameraState.quadratic p rz u0 u1.
Proof. reflexivity. Qed.

(** ** The zoom parabola *)

Lemma div_twice (a t d c : R) : a / t / t * d * d + c = a / t ^ 2 * d ^ 2 + c.
Proof.
  unfold Rdiv. simpl pow. rewrite !Rmult_1_r, Rinv_mult. ring.
Qed.

Lemma quadratic_parabola (p rz u0 u1 : R) :
  CameraState.quadratic p rz u0 u1 = Spec.parabola rz u0 u1 p.
Proof.
  unfold CameraState.quadratic, Spec.parabola, Spec.k, Spec.tm, Spec.r, Spec.um.
  cbv zeta. apply div_twice.
Qed.

Section Parabola.

Variables rz u0 u1 : R.
Hypothesis Hsign : Spec.share_sign rz u0 u1.

Local Abbreviation um := (Spec.um rz u0 u1).
Local Abbreviation r := (Spec.r rz u0 u1).
Local Abbreviation tm := (Spec.tm rz u0 u1).

Lemma ratio_pos : 0 < (u0 - um) / (u1 - um).
Proof.
  destruct Hsign as [[H0 H1] | [H0 H1]].
  - replace ((u0 - um) / (u1 - um)) with ((- (u0 - um)) / (- (u1 - um)))
      by (field; lra).
    apply Rdiv_lt_0_compat; lra.
  - apply Rdiv_lt_0_compat; lra.
Qed.

Lemma r_pos : 0 < r.
Proof. apply sqrt_lt_R0, ratio_pos. Qed.

Lemma r_square : r * r * (u1 - um) = u0 - um.
Proof.
  unfold Spec.r. rewrite sqrt_sqrt by (left; apply ratio_pos).
  field. destruct Hsign as [[H0 H1] | [H0 H1]]; lra.
Qed.

Lemma tm_eq : tm = r / (1 + r).
Proof. reflexivity. Qed.

Lemma tm_range : 0 < tm < 1.
Proof.
  rewrite tm_eq. assert (Hr := r_pos).
  split.
  - apply Rdiv_lt_0_compat; lra.
  - apply (Rmult_lt_reg_r (1 + r)); [lra |].
    unfold Rdiv. rewrite Rmult_assoc, Rinv_l by lra. lra.
Qed.

Lemma parabola_at_0 : Spec.parabola rz u0 u1 0 = u0.
Proof.
  unfold Spec.parabola, Spec.k.
  assert (Ht := tm_range). field. lra.
Qed.

Lemma parabola_at_1 : Spec.parabola rz u0 u1 1 = u1.
Proof.
  unfold Spec.parabola, Spec.k. rewrite tm_eq.
  assert (Hr := r_pos). rewrite <- r_square. field. lra.
Qed.

Lemma parabola_at_tm : Spec.parabola rz u0 u1 tm = um.
Proof.
  unfold Spec.parabola.
  replace (tm - tm) with 0 by ring. simpl pow. ring.
Qed.

Lemma k_sign :
  (u0 - um < 0 -> Spec.k rz u0 u1 < 0) /\ (0 < u0 - um -> 0 < Spec.k rz u0 u1).
Proof.
  unfold Spec.k.
  assert (Ht := tm_range).
  assert (H2 : 0 < / tm ^ 2).
  { apply Rinv_0_lt_compat. simpl. nra. }
  unfold Rdiv. split; intros H; nra.
Qed.

Lemma parabola_below_apex (p : R) :
  u0 - um < 0 -> Spec.parabola rz u0 u1 p <= um.
Proof.
  intros H. unfold Spec.parabola.
  destruct k_sign as [Hk _]. specialize (Hk H).
  assert (Hq : 0 <= (p - tm) ^ 2) by apply pow2_ge_0.
  generalize dependent (Spec.k rz u0 u1). intros k Hk.
  generalize dependent ((p - tm) ^ 2). intros q Hq. nra.
Qed.

Lemma parabola_above_apex (p : R) :
  0 < u0 - um -> um <= Spec.parabola rz u0 u1 p.
Proof.
  intros H. unfold Spec.parabola.
  destruct k_sign as [_ Hk]. specialize (Hk H).
  assert (Hq : 0 <= (p - tm) ^ 2) by apply pow2_ge_0.
  generalize dependent (Spec.k rz u0 u1). intros k Hk.
  generalize dependent ((p - tm) ^ 2). intros q Hq. nra.
Qed.

End Parabola.

(** The scenario [u0 = 100], [u1 = 200], [relativeZoom = 0.2]. *)
Lemma scenario_um : Spec.um 0.2 100 200 = 240.
Proof.
  unfold Spec.um. destruct (Rlt_dec 0 0.2); [| lra].
  rewrite Rmax_right by lra. lra.
Qed.

Lemma scenario_share_sign : Spec.share_sign 0.2 100 200.
Proof. left. rewrite scenario_um. split; lra. Qed.

Lemma scenario_maximum :
  Spec.um 0.2 100 200 = 240 /\
  (forall p : R, Spec.parabola 0.2 100 200 p <= 240) /\
  0 <= Spec.tm 0.2 100 200 <= 1 /\
  Spec.parabola 0.2 100 200 (Spec.tm 0.2 100 200) = 240.
Proof.
  assert (S := scenario_share_sign).
  split; [exact scenario_um |].
  split.
  - intros p. rewrite <- scenario_um.
    apply parabola_below_apex; [exact S | rewrite scenario_um; lra].
  - split.
    + destruct (tm_range _ _ _ S). lra.
    + rewrite parabola_at_tm. exact scenario_um.
Qed.

(** The scenario in binary64: the apex value is [240] and the value at
    the apex time is [240]; the values at progress [0] and [1] are
    [99.99999999999997] and [200.00000000000003]. *)
Lemma scenario_binary64 :
  (F64.CameraState.um 0.2 100 200 =? 240)%float = true /\
  (F64.CameraState.quadratic (F64.CameraState.tm 0.2 100 200) 0.2 100 200
   =? 240)%float = true /\
  (F64.CameraState.quadratic 0 0.2 100 200 =? 99.99999999999997)%float = true /\
  (F64.CameraState.quadratic 1 0.2 100 200 =? 200.00000000000003)%float = true.
Proof. vm_compute. repeat split. Qed.




(** ** [interpolate]: endpoints, angle, path, frame *)

Lemma Rabs_le_bounds (a b : R) : Rabs a <= b -> - b <= a <= b.
Proof. unfold Rabs. destruct (Rcase_abs a); lra. Qed.

(** C2, as stated, fails: from the angle [-170] to the angle [170] the
    difference is [340 > 180], the source interpolates towards
    [170 - 360], and at progress [1] the angle is [-190], not [170]. *)
Lemma interpolate_endpoints_not_fieldwise :
  ~ (forall self A B : CameraState.t,
        fieldwise_eq (CameraState.interpolate self A B 0 0 None false) A /\
        fieldwise_eq (CameraState.interpolate self A B 1 0 None false) B).
Proof.
  intros H.
  set (root := BBox.mk 0 0 100 100).
  set (A := CameraState.mk root 0 0 100 100 (-170) false).
  set (B := CameraState.mk root 0 0 100 100 170 false).
  destruct (H A A B) as [_ (_ & _ & _ & _ & Hangle & _)].
  rewrite interpolate_angle in Hangle. simpl in Hangle.
  destruct (Rlt_dec 180 (170 - -170)) as [_ | N]; [| apply N; lra].
  rewrite linear_1 in Hangle. lra.
Qed.

(** C2, amended.  With a relative zoom of zero and no path, at progress
    [0] the fields [cx], [cy], [width], [height] are those of [A] and at
    progress [1] those of [B].  The angle is that of [A] at progress [0],
    unless [B.angle - A.angle < -180], where it is [A.angle - 360]; it is
    that of [B] at progress [1], unless [B.angle - A.angle > 180], where
    it is [B.angle - 360].  The flag [clipped] keeps the value it had. *)
Theorem interpolate_endpoints (self A B : CameraState.t) :
  let s0 := CameraState.interpolate self A B 0 0 None false in
  let s1 := CameraState.interpolate self A B 1 0 None false in
  (CameraState.cx s0 = CameraState.cx A /\
   CameraState.cy s0 = CameraState.cy A /\
   CameraState.width s0 = CameraState.width A /\
   CameraState.height s0 = CameraState.height A /\
   CameraState.angle s0
   = (if Rlt_dec (CameraState.angle B - CameraState.angle A) (-180)
      then CameraState.angle A - 360 else CameraState.angle A) /\
   CameraState.clipped s0 = CameraState.clipped self) /\
  (CameraState.cx s1 = CameraState.cx B /\
   CameraState.cy s1 = CameraState.cy B /\
   CameraState.width s1 = CameraState.width B /\
   CameraState.height s1 = CameraState.height B /\
   CameraState.angle s1
   = (if Rlt_dec 180 (CameraState.angle B - CameraState.angle A)
      then CameraState.angle B - 360 else CameraState.angle B) /\
   CameraState.clipped s1 = CameraState.clipped self).
Proof.
  cbv zeta.
  rewrite !interpolate_cx_no_path, !interpolate_cy_no_path, !interpolate_width,
    !interpolate_height, !interpolate_angle, !interpolate_clipped, truthy_0.
  rewrite !linear_0, !linear_1.
  repeat split;
    destruct (Rlt_dec 180 (CameraState.angle B - CameraState.angle A));
    destruct (Rlt_dec (CameraState.angle B - CameraState.angle A) (-180));
    rewrite ?linear_0, ?linear_1; try reflexivity; lra.
Qed.

Lemma rotate_minus_350 (self : CameraState.t) :
  CameraState.angle (CameraState.setAngle self (-170 + -350)) = -520.
Proof.
  unfold CameraState.setAngle, JS.rem. simpl.
  assert (T : JS.trunc ((-170 + -350 + 180) / 360) = 0%Z)
    by (apply trunc_small; lra).
  rewrite T. simpl. lra.
Qed.

(** The branches of the angle, and the bound on the change of the angle
    for two angles that differ by at most [540], as any two angles
    between [-360] and [180] do. *)
Lemma interpolate_angle_shortest (self A B : CameraState.t)
    (rz : R) (path : option Path.t) (rev : bool) :
  (forall p : R,
      CameraState.angle (CameraState.interpolate self A B p rz path rev)
      = if Rlt_dec 180 (CameraState.angle B - CameraState.angle A)
        then Spec.lerp (CameraState.angle A) (CameraState.angle B - 360) p
        else if Rlt_dec (CameraState.angle B - CameraState.angle A) (-180)
        then Spec.lerp (CameraState.angle A - 360) (CameraState.angle B) p
        else Spec.lerp (CameraState.angle A) (CameraState.angle B) p) /\
  (Rabs (CameraState.angle B - CameraState.angle A) <= 540 ->
   Rabs (CameraState.angle (CameraState.interpolate self A B 1 rz path rev)
         - CameraState.angle (CameraState.interpolate self A B 0 rz path rev))
   <= 180) /\
  (CameraState.angle A = 170 -> CameraState.angle B = -170 ->
   CameraState.angle (CameraState.interpolate self A B 0.5 rz path rev) = -180).
Proof.
  split; [| split].
  - intros p. rewrite interpolate_angle, !linear_lerp. reflexivity.
  - intros Hd. rewrite !interpolate_angle.
    apply Rabs_le_bounds in Hd. apply Rabs_le.
    destruct (Rlt_dec 180 (CameraState.angle B - CameraState.angle A));
      [| destruct (Rlt_dec (CameraState.angle B - CameraState.angle A) (-180))];
      rewrite linear_0, linear_1; lra.
  - intros HA HB. rewrite interpolate_angle, HA, HB.
    destruct (Rlt_dec 180 (-170 - 170)); [lra |].
    destruct (Rlt_dec (-170 - 170) (-180)) as [_ | N]; [| exfalso; apply N; lra].
    unfold CameraState.linear. lra.
Qed.

(** C4.  The source at the angles [-520] and [170].  The angle [-520] is
    the one that [rotate(-350)] leaves on a camera whose angle is [-170],
    through the remainder of [setAngle] (see C1).  From [-520] to [170]
    the difference is [690 > 180]; the source interpolates from [-520] to
    [170 - 360], so the angle is [-520] at progress [0] and [-190] at
    progress [1]: a change of [330] degrees, more than the [180] that the
    comment of the source and the claim allow. *)
Theorem interpolate_angle_from_minus_520 (self s : CameraState.t) (root : BBox.t)
    (rz : R) (path : option Path.t) (rev : bool) :
  let A := CameraState.mk root 0 0 100 100 (-520) false in
  let B := CameraState.mk root 0 0 100 100 170 false in
  CameraState.angle (CameraState.setAngle s (-170 + -350)) = -520 /\
  CameraState.angle (CameraState.interpolate self A B 0 rz path rev) = -520 /\
  CameraState.angle (CameraState.interpolate self A B 1 rz path rev) = -190 /\
  Rabs (CameraState.angle (CameraState.interpolate self A B 1 rz path rev)
        - CameraState.angle (CameraState.interpolate self A B 0 rz path rev))
  = 330 /\
  ~ (Rabs (CameraState.angle (CameraState.interpolate self A B 1 rz path rev)
           - CameraState.angle (CameraState.interpolate self A B 0 rz path rev))
     <= 180).
Proof.
  cbv zeta.
  split; [apply rotate_minus_350 |].
  rewrite !interpolate_angle. simpl.
  destruct (Rlt_dec 180 (170 - -520)) as [_ | N]; [| exfalso; apply N; lra].
  rewrite linear_0, linear_1.
  assert (E : Rabs (170 - 360 - -520) = 330).
  { replace (170 - 360 - -520) with 330 by lra. apply Rabs_right. lra. }
  split; [reflexivity |]. split; [lra |]. split; [exact E |].
  rewrite E. lra.
Qed.

(** C5, as stated, fails: along a straight path of length [10] that
    starts at the abscissa [4.9], from a state whose [cx] is [24.7], the
    source writes at progress [0] the abscissa
    [4.9 + (24.7 - 4.9) = 24.699999999999996], not [24.7]: the offset is
    rounded when it is taken and again when it is added back. *)
Lemma interpolate_along_path_rounded :
  (let path := F64.Path.mk 10 (fun len => F64.Point.mk (4.9 + len) 0) in
   let A := F64.CameraState.mk 24.7 0 100 100 0 false in
   let B := F64.CameraState.mk 100 0 200 200 0 false in
   F64.CameraState.cx (F64.CameraState.interpolate A A B 0 0 (Some path) false)
   =? 24.7)%float = false /\
  (let path := F64.Path.mk 10 (fun len => F64.Point.mk (4.9 + len) 0) in
   let A := F64.CameraState.mk 24.7 0 100 100 0 false in
   let B := F64.CameraState.mk 100 0 200 200 0 false in
   F64.CameraState.cx (F64.CameraState.interpolate A A B 0 0 (Some path) false)
   =? 24.699999999999996)%float = true.
Proof. vm_compute. split; reflexivity. Qed.

(** C5, amended.  With a path, [interpolate] sets [cx] to the abscissa of
    the current point of the path plus the interpolation of the two
    offsets [initial.cx - startPoint.x] and [final.cx - endPoint.x], and
    [cy] in the same way; the current point is taken at the length
    [L * progress], or [L * (1 - progress)] for a reversed path, and the
    start and end points are the ends of the path chosen by
    [reversePath].  At progress [0] the centre is
    [startPoint + (initial centre - startPoint)] and at progress [1] it is
    [endPoint + (final centre - endPoint)], coordinate by coordinate: the
    centre of the state up to the rounding of the subtraction and of the
    addition, and that centre itself in a coordinate in which the end of
    the path coincides with it. *)
Theorem interpolate_along_path (self A B : CameraState.t) (rz : R)
    (path : Path.t) (rev : bool) :
  let L := Path.getTotalLength path in
  let startPoint := Path.getPointAtLength path (if rev then L else 0) in
  let endPoint := Path.getPointAtLength path (if rev then 0 else L) in
  let currentPoint (p : R) :=
    Path.getPointAtLength path (if rev then L * (1 - p) else L * p) in
  let at_ (p : R) := CameraState.interpolate self A B p rz (Some path) rev in
  (forall p : R,
      CameraState.cx (at_ p)
      = Point.x (currentPoint p)
        + Spec.lerp (CameraState.cx A - Point.x startPoint)
                    (CameraState.cx B - Point.x endPoint) p /\
      CameraState.cy (at_ p)
      = Point.y (currentPoint p)
        + Spec.lerp (CameraState.cy A - Point.y startPoint)
                    (CameraState.cy B - Point.y endPoint) p) /\
  (CameraState.cx (at_ 0)
   = Point.x startPoint + (CameraState.cx A - Point.x startPoint) /\
   CameraState.cy (at_ 0)
   = Point.y startPoint + (CameraState.cy A - Point.y startPoint)) /\
  (CameraState.cx (at_ 1)
   = Point.x endPoint + (CameraState.cx B - Point.x endPoint) /\
   CameraState.cy (at_ 1)
   = Point.y endPoint + (CameraState.cy B - Point.y endPoint)) /\
  ((Point.x startPoint = CameraState.cx A ->
    CameraState.cx (at_ 0) = CameraState.cx A) /\
   (Point.y startPoint = CameraState.cy A ->
    CameraState.cy (at_ 0) = CameraState.cy A) /\
   (Point.x endPoint = CameraState.cx B ->
    CameraState.cx (at_ 1) = CameraState.cx B) /\
   (Point.y endPoint = CameraState.cy B ->
    CameraState.cy (at_ 1) = CameraState.cy B)).
Proof.
  cbv zeta.
  assert (E0 : CameraState.cx (CameraState.interpolate self A B 0 rz (Some path) rev)
               = Point.x (Path.getPointAtLength path
                            (if rev then Path.getTotalLength path else 0))
                 + (CameraState.cx A
                    - Point.x (Path.getPointAtLength path
                                 (if rev then Path.getTotalLength path else 0))) /\
               CameraState.cy (CameraState.interpolate self A B 0 rz (Some path) rev)
               = Point.y (Path.getPointAtLength path
                            (if rev then Path.getTotalLength path else 0))
                 + (CameraState.cy A
                    - Point.y (Path.getPointAtLength path
                                 (if rev then Path.getTotalLength path else 0)))).
  { rewrite interpolate_cx_path, interpolate_cy_path. cbv zeta.
    rewrite !linear_0. destruct rev.
    - replace (Path.getTotalLength path * (1 - 0))
        with (Path.getTotalLength path) by ring.
      split; reflexivity.
    - replace (Path.getTotalLength path * 0) with 0 by ring.
      split; reflexivity. }
  assert (E1 : CameraState.cx (CameraState.interpolate self A B 1 rz (Some path) rev)
               = Point.x (Path.getPointAtLength path
                            (if rev then 0 else Path.getTotalLength path))
                 + (CameraState.cx B
                    - Point.x (Path.getPointAtLength path
                                 (if rev then 0 else Path.getTotalLength path))) /\
               CameraState.cy (CameraState.interpolate self A B 1 rz (Some path) rev)
               = Point.y (Path.getPointAtLength path
                            (if rev then 0 else Path.getTotalLength path))
                 + (CameraState.cy B
                    - Point.y (Path.getPointAtLength path
                                 (if rev then 0 else Path.getTotalLength path)))).
  { rewrite interpolate_cx_path, interpolate_cy_path. cbv zeta.
    rewrite !linear_1. destruct rev.
    - replace (Path.getTotalLength path * (1 - 1)) with 0 by ring.
      split; reflexivity.
    - replace (Path.getTotalLength path * 1)
        with (Path.getTotalLength path) by ring.
      split; reflexivity. }
  split; [| split; [exact E0 | split; [exact E1 |]]].
  - intros p. rewrite interpolate_cx_path, interpolate_cy_path.
    cbv zeta. rewrite !linear_lerp. destruct rev; split; reflexivity.
  - destruct E0 as [E0x E0y]. destruct E1 as [E1x E1y].
    repeat split; intros H.
    + rewrite E0x, H. ring.
    + rewrite E0y, H. ring.
    + rewrite E1x, H. ring.
    + rewrite E1y, H. ring.
Qed.

Lemma interpolate_along_path_witness :
  let root := BBox.mk 0 0 800 600 in
  let path := Path.mk 10 (fun len => Point.mk (5 + len) 7) in
  let A := CameraState.mk root 5 50 100 100 0 false in
  let B := CameraState.mk root 300 150 200 200 90 true in
  Point.x (Path.getPointAtLength path 0) = CameraState.cx A /\
  CameraState.cx (CameraState.interpolate A A B 0 0 (Some path) false)
  = CameraState.cx A.
Proof.
  cbv zeta.
  assert (H : Point.x (Path.getPointAtLength
                         (Path.mk 10 (fun len => Point.mk (5 + len) 7)) 0)
              = CameraState.cx
                  (CameraState.mk (BBox.mk 0 0 800 600) 5 50 100 100 0 false))
    by (simpl; lra).
  split; [exact H |].
  exact (proj1 (proj2 (proj2 (proj2
           (interpolate_along_path
              (CameraState.mk (BBox.mk 0 0 800 600) 5 50 100 100 0 false)
              (CameraState.mk (BBox.mk 0 0 800 600) 5 50 100 100 0 false)
              (CameraState.mk (BBox.mk 0 0 800 600) 300 150 200 200 90 true)
              0 (Path.mk 10 (fun len => Point.mk (5 + len) 7)) false))))
           H).
Defined.

(** C9.  From the state [cx = 100], [cy = 50], [width = 200],
    [height = 100], [angle = 0] to the state [cx = 300], [cy = 150],
    [width = 100], [height = 50], [angle = 90], with a relative zoom of
    zero and no path, the state at progress [0.5] has [cx = 200],
    [cy = 100], [width = 150], [height = 75], [angle = 45]. *)
Theorem interpolate_scenario_1 (self : CameraState.t) (root : BBox.t)
    (c0 c1 rev : bool) :
  let initial := CameraState.mk root 100 50 200 100 0 c0 in
  let final := CameraState.mk root 300 150 100 50 90 c1 in
  let s := CameraState.interpolate self initial final 0.5 0 None rev in
  CameraState.cx s = 200 /\ CameraState.cy s = 100 /\
  CameraState.width s = 150 /\ CameraState.height s = 75 /\
  CameraState.angle s = 45.
Proof.
  cbv zeta.
  rewrite interpolate_cx_no_path, interpolate_cy_no_path, interpolate_width,
    interpolate_height, interpolate_angle, truthy_0.
  simpl.
  destruct (Rlt_dec 180 (90 - 0)); [lra |].
  destruct (Rlt_dec (90 - 0) (-180)); [lra |].
  unfold CameraState.linear. repeat split; lra.
Qed.

(** C10.  Whatever the two input states, the progress, the relative zoom
    and the path, [interpolate] leaves the flag [clipped] of [this] as it
    was: it writes [width], [height], [cx], [cy] and [angle] and nothing
    else. *)
Theorem interpolate_keeps_clipped (self A B : CameraState.t) (p rz : R)
    (path : option Path.t) (rev : bool) :
  CameraState.clipped (CameraState.interpolate self A B p rz path rev)
  = CameraState.clipped self /\
  CameraState.svgRoot (CameraState.interpolate self A B p rz path rev)
  = CameraState.svgRoot self.
Proof.
  split; [apply interpolate_clipped | apply interpolate_svgRoot].
Qed.

(** ** The camera: [scale], [update], [drag], [zoom] *)

Lemma update_state (c : Camera.t) : Camera.state (Camera.update c) = Camera.state c.
Proof. reflexivity. Qed.

Lemma update_viewport (c : Camera.t) :
  Camera.viewport (Camera.update c) = Camera.viewport c.
Proof. reflexivity. Qed.

Lemma Rmin_same (a : R) : Rmin a a = a.
Proof. unfold Rmin. destruct (Rle_dec a a); reflexivity. Qed.

(** C8, as stated, fails.  For a frame of [147] by [82.6875] in a
    viewport of [1280] by [720] the two quotients are equal, and the frame
    on the screen is [1280.0000000000002] by [720.0000000000001]: the
    quotient is rounded, and so is its product with the width.  For a
    frame of [0] by [0] in a viewport of [100] by [100] the two quotients
    are equal, both infinite, and the width of the frame on the screen is
    [NaN]. *)
Lemma frame_not_viewport :
  (let c := F64.Camera.mk (F64.CameraState.mk 0 0 147 82.6875 0 false)
                          (F64.Viewport.mk 1280 720) in
   (1280 / 147 =? 720 / 82.6875) = true /\
   (F64.Camera.frameWidth c =? 1280) = false /\
   (F64.Camera.frameHeight c =? 720) = false /\
   (F64.Camera.frameWidth c =? 1280.0000000000002) = true /\
   (F64.Camera.frameHeight c =? 720.0000000000001) = true)%float /\
  (let c := F64.Camera.mk (F64.CameraState.mk 0 0 0 0 0 false)
                          (F64.Viewport.mk 100 100) in
   (100 / 0 =? 100 / 0) = true /\
   (F64.Camera.frameWidth c =? 100) = false /\
   is_nan (F64.Camera.frameWidth c) = true)%float.
Proof. vm_compute. repeat split. Qed.

(** C8, amended.  The scale of a camera is the smaller of the two
    quotients [viewport.width / width] and [viewport.height / height].
    For a camera whose width and height are not zero, when the two
    quotients are equal the scale is that quotient and the frame on the
    screen is [width * (viewport.width / width)] by
    [height * (viewport.height / height)]: the size of the viewport up to
    the rounding of the quotient and of the product.  It is the viewport,
    [400] by [200], for a frame of [200] by [100]. *)
Theorem scale_fits_viewport (c : Camera.t) :
  let vw := Viewport.width (Camera.viewport c) in
  let vh := Viewport.height (Camera.viewport c) in
  let w := CameraState.width (Camera.state c) in
  let h := CameraState.height (Camera.state c) in
  Camera.scale c = Rmin (vw / w) (vh / h) /\
  (w <> 0 -> h <> 0 -> vw / w = vh / h ->
   Camera.scale c = vw / w /\ Camera.scale c = vh / h /\
   Camera.frameWidth c = w * (vw / w) /\
   Camera.frameHeight c = h * (vh / h)) /\
  (let c := F64.Camera.mk (F64.CameraState.mk 0 0 200 100 0 false)
                          (F64.Viewport.mk 400 200) in
   (400 / 200 =? 200 / 100) = true /\
   (F64.Camera.frameWidth c =? 400) = true /\
   (F64.Camera.frameHeight c =? 200) = true)%float.
Proof.
  cbv zeta. split; [reflexivity |]. split.
  - intros _ _ E.
    assert (S1 : Camera.scale c
                 = Viewport.width (Camera.viewport c)
                   / CameraState.width (Camera.state c)).
    { unfold Camera.scale. rewrite <- E. apply Rmin_same. }
    assert (S2 : Camera.scale c
                 = Viewport.height (Camera.viewport c)
                   / CameraState.height (Camera.state c)).
    { rewrite S1. exact E. }
    split; [exact S1 |]. split; [exact S2 |].
    unfold Camera.frameWidth, Camera.frameHeight.
    split; [rewrite S1 | rewrite S2]; reflexivity.
  - vm_compute. repeat split.
Qed.

Lemma scale_fits_viewport_witness :
  let root := BBox.mk 0 0 800 600 in
  let c := Camera.mk (CameraState.mk root 400 300 200 100 0 true)
                     (Viewport.mk root 400 200) (Layer.mk [1%nat]) true
                     Rect.fresh [None] in
  (200 <> 0 /\ 100 <> 0 /\ 400 / 200 = 200 / 100) /\
  Camera.scale c = 400 / 200 /\
  Camera.frameWidth c = 200 * (400 / 200).
Proof.
  cbv zeta.
  assert (Hw : 200 <> 0) by lra.
  assert (Hh : 100 <> 0) by lra.
  assert (E : 400 / 200 = 200 / 100) by lra.
  split; [exact (conj Hw (conj Hh E)) |].
  destruct (proj1 (proj2 (scale_fits_viewport
                  (Camera.mk
                     (CameraState.mk (BBox.mk 0 0 800 600) 400 300 200 100 0 true)
                     (Viewport.mk (BBox.mk 0 0 800 600) 400 200)
                     (Layer.mk [1%nat]) true Rect.fresh [None])))
               Hw Hh E) as (S1 & _ & Fw & _).
  split; [exact S1 | exact Fw].
Defined.

(** C7.  When the scale of the camera is not zero, [drag(0, 0)] leaves
    [cx] and [cy] as they were and sets [clipped] to [false].  Whatever
    the displacement, [drag] leaves [width], [height] and [angle] as they
    were and sets [clipped] to [false]; of the fields of the state it
    writes [cx], [cy] and [clipped] only. *)
Theorem drag_frame (c : Camera.t) :
  (Camera.scale c <> 0 ->
   CameraState.cx (Camera.state (Camera.drag c 0 0))
   = CameraState.cx (Camera.state c) /\
   CameraState.cy (Camera.state (Camera.drag c 0 0))
   = CameraState.cy (Camera.state c) /\
   CameraState.clipped (Camera.state (Camera.drag c 0 0)) = false) /\
  (forall deltaX deltaY : R,
      CameraState.width (Camera.state (Camera.drag c deltaX deltaY))
      = CameraState.width (Camera.state c) /\
      CameraState.height (Camera.state (Camera.drag c deltaX deltaY))
      = CameraState.height (Camera.state c) /\
      CameraState.angle (Camera.state (Camera.drag c deltaX deltaY))
      = CameraState.angle (Camera.state c) /\
      CameraState.svgRoot (Camera.state (Camera.drag c deltaX deltaY))
      = CameraState.svgRoot (Camera.state c) /\
      Camera.viewport (Camera.drag c deltaX deltaY) = Camera.viewport c /\
      CameraState.clipped (Camera.state (Camera.drag c deltaX deltaY)) = false).
Proof.
  split.
  - intros Hs. unfold Camera.drag. cbv zeta. rewrite update_state. simpl.
    repeat split; field; exact Hs.
  - intros deltaX deltaY. repeat split.
Qed.

Lemma drag_frame_witness :
  let root := BBox.mk 0 0 800 600 in
  let c := Camera.mk (CameraState.mk root 400 300 200 100 30 true)
                     (Viewport.mk root 400 200) (Layer.mk [1%nat]) true
                     Rect.fresh [None] in
  Camera.scale c <> 0 /\
  CameraState.cx (Camera.state (Camera.drag c 0 0)) = 400 /\
  CameraState.cy (Camera.state (Camera.drag c 0 0)) = 300 /\
  CameraState.clipped (Camera.state (Camera.drag c 0 0)) = false.
Proof.
  cbv zeta.
  assert (Hs : Camera.scale
                 (Camera.mk
                    (CameraState.mk (BBox.mk 0 0 800 600) 400 300 200 100 30 true)
                    (Viewport.mk (BBox.mk 0 0 800 600) 400 200)
                    (Layer.mk [1%nat]) true Rect.fresh [None]) <> 0).
  { unfold Camera.scale. simpl.
    replace (400 / 200) with 2 by lra. replace (200 / 100) with 2 by lra.
    rewrite Rmin_same. lra. }
  split; [exact Hs |].
  exact (proj1 (drag_frame _) Hs).
Defined.

(** ** The size of the frame *)

Lemma zoom_size (c : Camera.t) (factor x y : R) :
  CameraState.width (Camera.state (Camera.zoom c factor x y))
  = CameraState.width (Camera.state c) / factor /\
  CameraState.height (Camera.state (Camera.zoom c factor x y))
  = CameraState.height (Camera.state c) / factor.
Proof. split; reflexivity. Qed.


Lemma run_nonnegative (c : Camera.t) (cmd : command) :
  nonnegative (Camera.state c) -> size_safe cmd ->
  nonnegative (Camera.state (run c cmd)).
Proof.
  intros [Hw Hh] Ha.
  destruct cmd as [a | factor x y | dx dy | s | a | e | A B p rz path rev];
    simpl in Ha; unfold run; try contradiction.
  - split; assumption.
  - unfold nonnegative. destruct (zoom_size c factor x y) as [-> ->].
    assert (0 < / factor) by (apply Rinv_0_lt_compat; exact Ha).
    unfold Rdiv. split; apply Rmult_le_pos; lra.
  - split; assumption.
  - exact Ha.
  - split; assumption.
Qed.



(** ** More on [setAngle] *)

Lemma setAngle_small (self : CameraState.t) (a : R) :
  -540 < a < 180 ->
  CameraState.angle (CameraState.setAngle self a) = a.
Proof.
  intros Ha. unfold CameraState.setAngle. simpl.
  rewrite rem_small by lra. ring.
Qed.

Lemma setAngle_range (self : CameraState.t) (a : R) :
  -540 < CameraState.angle (CameraState.setAngle self a) < 180.
Proof.
  destruct (Rle_dec (-180) a) as [Hge | Hlt].
  - destruct (setAngle_from_minus_180 self a Hge) as [_ H]. lra.
  - assert (H := setAngle_below_minus_180 self a ltac:(lra)). lra.
Qed.

(** X2.  Whatever the angle, a second [setAngle] with the angle that the first
    one wrote changes nothing. *)
Theorem setAngle_idempotent (self : CameraState.t) (a : R) :
  CameraState.setAngle (CameraState.setAngle self a)
    (CameraState.angle (CameraState.setAngle self a))
  = CameraState.setAngle self a.
Proof.
  assert (R := setAngle_range self a).
  assert (F := setAngle_small (CameraState.setAngle self a) _ R).
  unfold CameraState.setAngle, CameraState.set_angle in *. simpl in *.
  rewrite F. reflexivity.
Qed.

(** ** [clone] and [setAtState] *)

(** X4.  A clone carries the six fields and the root of the original, and
    copying a state into any other state, a clone included, makes the six
    fields those of the copied state, whatever they were before. *)
Theorem clone_roundtrip (s original : CameraState.t) :
  CameraState.clone original = original /\
  fieldwise_eq (CameraState.setAtState (CameraState.clone s) original) original /\
  CameraState.svgRoot (CameraState.setAtState (CameraState.clone s) original)
  = CameraState.svgRoot s.
Proof.
  split; [destruct original; reflexivity |].
  split; [repeat split | reflexivity].
Qed.

(** ** [setAtElement] *)

Lemma atan2_range (y x : R) : - PI < JS.atan2 y x <= PI.
Proof.
  assert (Hpi := PI_RGT_0). unfold JS.atan2.
  destruct (Rlt_dec 0 x) as [Hx | Hx].
  - destruct (atan_bound (y / x)). lra.
  - destruct (Rlt_dec x 0) as [Hx' | Hx'].
    + assert (Hinv : / x < 0) by (apply Rinv_lt_0_compat; exact Hx').
      destruct (atan_bound (y / x)).
      destruct (Rle_dec 0 y) as [Hy | Hy].
      * assert (Hq : y / x <= 0) by (unfold Rdiv; nra).
        assert (atan (y / x) <= 0).
        { destruct Hq as [Hq | Hq].
          - left. rewrite <- atan_0. apply atan_increasing. exact Hq.
          - rewrite Hq, atan_0. lra. }
        lra.
      * assert (Hq : 0 < y / x) by (unfold Rdiv; nra).
        assert (0 < atan (y / x)).
        { rewrite <- atan_0. apply atan_increasing. exact Hq. }
        lra.
    + destruct (Rlt_dec 0 y); [lra |].
      destruct (Rlt_dec y 0); lra.
Qed.

Lemma degrees_bounds (a : R) :
  - PI < a <= PI -> -180 < a * 180 / PI <= 180.
Proof.
  intros [Hlo Hhi]. assert (Hpi := PI_RGT_0).
  assert (Hinv : 0 < / PI) by (apply Rinv_0_lt_compat; exact Hpi).
  assert (E : PI * / PI = 1) by (apply Rinv_r; lra).
  unfold Rdiv. split; nra.
Qed.

Lemma display_setAtElement_player (self : CameraState.t) (e : DisplayElement.t) :
  DisplayElement.setAtElement self e
  = CameraState.setAtElement self
      (Element.mk (DisplayElement.rawBox e) (DisplayElement.getCTM e)).
Proof. reflexivity. Qed.

(** In the second copy, a [rect] element gives the frame the size of its
    own [width] and [height] attributes, multiplied by the scale of the
    matrix, and its centre is the image of the centre of the rectangle
    [x, y, width, height]; the bounding box is not read.  Any other
    element gives the frame the size and the centre of its bounding
    box. *)
Lemma display_setAtElement_rect (self : CameraState.t) (e : DisplayElement.t) :
  let m := DisplayElement.getCTM e in
  let scale := sqrt (Matrix.a m * Matrix.a m + Matrix.b m * Matrix.b m) in
  let s := DisplayElement.setAtElement self e in
  (DisplayElement.nodeName e = "rect"%string ->
   CameraState.width s = DisplayElement.width e * scale /\
   CameraState.height s = DisplayElement.height e * scale /\
   Point.mk (CameraState.cx s) (CameraState.cy s)
   = Matrix.transform m
       (Point.mk (DisplayElement.x e + DisplayElement.width e / 2)
                 (DisplayElement.y e + DisplayElement.height e / 2))) /\
  (DisplayElement.nodeName e <> "rect"%string ->
   s = CameraState.setAtElement self
         (Element.mk (DisplayElement.getBBox e) m)).
Proof.
  cbv zeta. split.
  - intros Hn. unfold DisplayElement.setAtElement, DisplayElement.rawBox.
    rewrite Hn. simpl. repeat split.
  - intros Hn. unfold DisplayElement.setAtElement, DisplayElement.rawBox.
    destruct (String.eqb_spec (DisplayElement.nodeName e) "rect") as [E | _];
      [contradiction | reflexivity].
Qed.

(** X7.  The angle that [setAtElement] writes lies between [-180] and
    [180], the two ends included, for every element and every matrix, in
    the first copy of the prototype and in the second. *)
Theorem setAtElement_angle_range (self : CameraState.t) (e : Element.t)
    (d : DisplayElement.t) :
  -180 <= CameraState.angle (CameraState.setAtElement self e) <= 180 /\
  -180 <= CameraState.angle (DisplayElement.setAtElement self d) <= 180.
Proof.
  split.
  - unfold CameraState.setAtElement. simpl.
    destruct (degrees_bounds _ (atan2_range (Matrix.b (Element.getCTM e))
                                            (Matrix.a (Element.getCTM e)))).
    lra.
  - rewrite display_setAtElement_player.
    unfold CameraState.setAtElement. simpl.
    destruct (degrees_bounds _
                (atan2_range (Matrix.b (DisplayElement.getCTM d))
                             (Matrix.a (DisplayElement.getCTM d)))).
    lra.
Qed.

(** ** More on the camera: [update] and the elements it writes *)

Lemma update_groups (c : Camera.t) :
  Camera.svgTransformGroups (Camera.update c)
  = map (fun _ => Some (emitted c)) (Camera.svgTransformGroups c).
Proof. reflexivity. Qed.

Lemma update_idempotent (c : Camera.t) : Camera.update (Camera.update c) = Camera.update c.
Proof.
  unfold Camera.update. simpl. rewrite map_map. reflexivity.
Qed.

Lemma run_updating (c : Camera.t) (cmd : command) :
  updating cmd -> exists c0 : Camera.t, run c cmd = Camera.update c0.
Proof.
  destruct cmd; simpl; intros H; try contradiction; eexists; reflexivity.
Qed.

(** X16.  After [rotate], [zoom], [drag] and [setAtState] the elements of the
    camera show its fields: a further [update] changes nothing, every
    group holds the transform computed from the fields the camera now
    has.  [update] itself never writes a field of the state. *)
Theorem methods_leave_camera_updated (c : Camera.t) (cmd : command) :
  updating cmd ->
  Camera.update (run c cmd) = run c cmd /\
  Forall (fun g => g = Some (emitted (run c cmd)))
         (Camera.svgTransformGroups (run c cmd)) /\
  Camera.state (Camera.update c) = Camera.state c.
Proof.
  intros H. destruct (run_updating c cmd H) as [c0 E]. rewrite E.
  split; [apply update_idempotent |].
  split; [| reflexivity].
  rewrite update_groups. apply Forall_forall.
  intros g Hg. apply in_map_iff in Hg. destruct Hg as [g0 [<- _]].
  reflexivity.
Qed.

Lemma methods_leave_camera_updated_witness :
  let root := BBox.mk 0 0 800 600 in
  let c := Camera.mk (CameraState.mk root 400 300 200 50 0 true)
                     (Viewport.mk root 400 200) (Layer.mk [1%nat]) true
                     Rect.fresh [None] in
  updating (Drag 3 4) /\ Camera.update (run c (Drag 3 4)) = run c (Drag 3 4).
Proof.
  cbv zeta. split; [exact I |].
  exact (proj1 (methods_leave_camera_updated
                  (Camera.mk (CameraState.mk (BBox.mk 0 0 800 600) 400 300 200 50 0 true)
                             (Viewport.mk (BBox.mk 0 0 800 600) 400 200)
                             (Layer.mk [1%nat]) true Rect.fresh [None])
                  (Drag 3 4) I)).
Defined.

Lemma run_keeps (c : Camera.t) (cmd : command) :
  List.length (Camera.svgTransformGroups (run c cmd))
  = List.length (Camera.svgTransformGroups c) /\
  Camera.viewport (run c cmd) = Camera.viewport c /\
  Camera.layer (run c cmd) = Camera.layer c /\
  Camera.selected (run c cmd) = Camera.selected c.
Proof.
  destruct cmd; unfold run;
    [unfold Camera.rotate | unfold Camera.zoom, Camera.drag
    | unfold Camera.drag | unfold Camera.setAtState | | |];
    cbv zeta; rewrite ?update_groups, ?length_map; repeat split.
Qed.

(** X17.  A camera keeps what [init] gave it: whatever calls follow, it has one
    transform group per node of its layer, and the viewport, the layer and
    the flag [selected] it was created with. *)
Theorem camera_keeps_groups (viewport : Viewport.t) (layer : Layer.t)
    (cmds : list command) :
  let c := fold_left run cmds (Camera.init viewport layer) in
  List.length (Camera.svgTransformGroups c) = List.length (Layer.svgNodes layer) /\
  Camera.viewport c = viewport /\ Camera.layer c = layer /\
  Camera.selected c = true.
Proof.
  cbv zeta.
  assert (G : forall c0 : Camera.t,
             let c := fold_left run cmds c0 in
             List.length (Camera.svgTransformGroups c)
             = List.length (Camera.svgTransformGroups c0) /\
             Camera.viewport c = Camera.viewport c0 /\
             Camera.layer c = Camera.layer c0 /\
             Camera.selected c = Camera.selected c0).
  { induction cmds as [| cmd cmds IH]; intros c0; simpl.
    - repeat split.
    - destruct (IH (run c0 cmd)) as (L & V & Y & S).
      destruct (run_keeps c0 cmd) as (L0 & V0 & Y0 & S0).
      cbv zeta in L, V, Y, S.
      rewrite L, V, Y, S. repeat split; assumption. }
  destruct (G (Camera.init viewport layer)) as (L & V & Y & S).
  cbv zeta in L, V, Y, S. rewrite L, V, Y, S.
  unfold Camera.init. simpl. rewrite length_map. repeat split.
Qed.

